(** * GeodePy [statistics.py]: positional-uncertainty statistics

    A shallow embedding of [geodepy/statistics.py] and the properties of
    its six functions.

    Modelling conventions.
    - A Python [float] is a real number ([R]); the arithmetic of the module
      is the exact one, so every statement below is a statement of real
      arithmetic.  The operations of [math] and of the language that raise
      instead of returning ([math.sqrt] below zero, [/] by zero) raise here
      as well.
    - A Python [int] is a [Z].
    - A two-dimensional [numpy] array is the list of its rows.
    - A call either returns a value or raises an exception: [result].
    - Where the outcome of a call hangs on one rounding, on the sign of a
      zero, on a NaN or on the type of a scalar, exact arithmetic says
      nothing about the program.  Module [F64] models [error_ellipse] and
      [circ_hz_pu] a second time, on binary64 numbers, as far as IEEE 754
      and CPython fix their results. *)

From Stdlib Require Import Reals Lra Lia Psatz RNsatz ZArith List String Bool Sorted.
From Stdlib Require Floats.
Import ListNotations.

Open Scope R_scope.

(** ** Exceptions and results *)

Inductive exn : Type :=
| NameError (name : string)
| SystemExit (msg : string)
| TypeError (msg : string)
| ValueError (msg : string)
| ZeroDivisionError (msg : string)
| IndexError (msg : string).

Inductive result (A : Type) : Type :=
| Return (a : A)
| Raise (e : exn).

Arguments Return {A} a.
Arguments Raise {A} e.

Definition bind {A B : Type} (m : result A) (k : A -> result B) : result B :=
  match m with
  | Return a => k a
  | Raise e => Raise e
  end.

Declare Scope py_scope.
Delimit Scope py_scope with py.
Notation "x <- m ;; k" := (bind m (fun x => k))
  (at level 61, m at next level, right associativity) : py_scope.
Open Scope py_scope.

(** ** The module's name space

    Lines 3-4 of the module: [from math import radians, sin, cos, sqrt,
    atan2, degrees] and [import numpy as np]; then the six functions and the
    table.  A name that is neither bound here nor a builtin raises
    [NameError] when it is evaluated. *)

Definition module_globals : list string :=
  [ "radians"; "sin"; "cos"; "sqrt"; "atan2"; "degrees"; "np";
    "rotation_matrix"; "vcv_cart2local"; "vcv_local2cart"; "error_ellipse";
    "circ_hz_pu"; "k_val95"; "ttable_p95" ]%string.

Definition bound (name : string) : bool :=
  existsb (String.eqb name) module_globals.

(** [sys.exit(msg)]: the name [sys] is looked up first. *)
Definition sys_exit {A : Type} (msg : string) : result A :=
  if bound "sys" then Raise (SystemExit msg) else Raise (NameError "sys").

(** ** Python values, as far as [k_val95] inspects them *)

Inductive pyval : Type :=
| PyInt (z : Z)
| PyBool (b : bool)
| PyFloat (x : R)
| PyStr (s : string)
| PyNone.

(** [isinstance(v, int)]: [bool] is a subclass of [int]. *)
Definition isinstance_int (v : pyval) : bool :=
  match v with
  | PyInt _ | PyBool _ => true
  | _ => false
  end.

(** The integer an instance of [int] stands for. *)
Definition int_value (v : pyval) : Z :=
  match v with
  | PyInt z => z
  | PyBool true => 1%Z
  | _ => 0%Z
  end.

(** ** Library functions of [math] and of the language *)

Definition radians (x : R) : R := x * PI / 180.
Definition degrees (x : R) : R := x * 180 / PI.

(** [math.sqrt]: a [ValueError] below zero. *)
Definition math_sqrt (x : R) : result R :=
  if Rlt_dec x 0 then Raise (ValueError "math domain error")
  else Return (sqrt x).

(** [math.atan2(y, x)]: the angle of the point [(x, y)]. *)
Definition atan2 (y x : R) : R :=
  if Rlt_dec 0 x then atan (y / x)
  else if Rlt_dec x 0 then
    if Rle_dec 0 y then atan (y / x) + PI else atan (y / x) - PI
  else
    if Rlt_dec 0 y then PI / 2
    else if Rlt_dec y 0 then - (PI / 2)
    else 0.

(** [x / y] on floats: a [ZeroDivisionError] when [y] is zero. *)
Definition truediv (x y : R) : result R :=
  if Req_dec_T y 0 then Raise (ZeroDivisionError "float division by zero")
  else Return (x / y).

(** [l[i]] on a Python list: a negative index counts from the end. *)
Definition list_getitem {A : Type} (l : list A) (i : Z) : result A :=
  let n := Z.of_nat (List.length l) in
  let j := if (i <? 0)%Z then (i + n)%Z else i in
  if ((0 <=? j) && (j <? n))%Z then
    match nth_error l (Z.to_nat j) with
    | Some a => Return a
    | None => Raise (IndexError "list index out of range")
    end
  else Raise (IndexError "list index out of range").

(** ** The coverage-factor table (lines 120-139) *)

Definition ttable_p95 : list R :=
  [12.7062; 4.30265; 3.18245; 2.77645; 2.57058; 2.44691;
   2.36462; 2.30600; 2.26216; 2.22814; 2.20099; 2.17881;
   2.16037; 2.14479; 2.13145; 2.11991; 2.10982; 2.10092;
   2.09302; 2.08596; 2.07961; 2.07387; 2.06866; 2.06390;
   2.05954; 2.05553; 2.05183; 2.04841; 2.04523; 2.04227;
   2.03951; 2.03693; 2.03452; 2.03224; 2.03011; 2.02809;
   2.02619; 2.02439; 2.02269; 2.02108; 2.01954; 2.01808;
   2.01669; 2.01537; 2.01410; 2.01290; 2.01174; 2.01063;
   2.00958; 2.00856; 2.00758; 2.00665; 2.00575; 2.00488;
   2.00404; 2.00324; 2.00247; 2.00172; 2.00100; 2.00030;
   1.99962; 1.99897; 1.99834; 1.99773; 1.99714; 1.99656;
   1.99601; 1.99547; 1.99495; 1.99444; 1.99394; 1.99346;
   1.99300; 1.99254; 1.99210; 1.99167; 1.99125; 1.99085;
   1.99045; 1.99006; 1.98969; 1.98932; 1.98896; 1.98861;
   1.98827; 1.98793; 1.98761; 1.98729; 1.98698; 1.98667;
   1.98638; 1.98609; 1.98580; 1.98552; 1.98525; 1.98498;
   1.98472; 1.98447; 1.98422; 1.98397; 1.98373; 1.98350;
   1.98326; 1.98304; 1.98282; 1.98260; 1.98238; 1.98217;
   1.98197; 1.98177; 1.98157; 1.98137; 1.98118; 1.98099;
   1.98081; 1.98063; 1.98045; 1.98027; 1.98010; 1.97993].

(** ** [k_val95] (lines 98-117) *)

Definition k_val95 (dof : pyval) : result R :=
  if negb (isinstance_int dof) then
    Raise (TypeError "Degrees of Freedom must be Int")
  else
    let d := int_value dof in
    if (d <? 1)%Z then list_getitem ttable_p95 0
    else if (d >? 120)%Z then Return 1.96
    else list_getitem ttable_p95 (d - 1).

(** ** Two-dimensional arrays

    [np.array([[..], [..], [..]])] is the list of its rows; the rows of an
    array all have the same length. *)

Definition ndarray : Type := list (list R).

(** [m.shape[0]] and [m.shape[1]]. *)
Definition shape0 (m : ndarray) : nat := List.length m.
Definition shape1 (m : ndarray) : nat :=
  match m with
  | [] => 0%nat
  | row :: _ => List.length row
  end.

(** [m] is an array of [r] rows and [c] columns. *)
Definition has_shape (r c : nat) (m : ndarray) : bool :=
  (List.length m =? r)%nat && forallb (fun row => (List.length row =? c)%nat) m.

(** [m[i, j]] for indices that are not negative. *)
Definition getitem (m : ndarray) (i j : nat) : result R :=
  match nth_error m i with
  | Some row =>
      match nth_error row j with
      | Some x => Return x
      | None => Raise (IndexError "index is out of bounds for axis 1")
      end
  | None => Raise (IndexError "index is out of bounds for axis 0")
  end.

(** Column [j] of [m], and [m.transpose()]. *)
Definition column (m : ndarray) (j : nat) : list R :=
  map (fun row => nth j row 0) m.

Definition transpose (m : ndarray) : ndarray :=
  map (column m) (seq 0 (shape1 m)).

Fixpoint dot (u v : list R) : R :=
  match u, v with
  | x :: u', y :: v' => x * y + dot u' v'
  | _, _ => 0
  end.

(** The product of two arrays whose inner dimensions agree. *)
Definition matprod (a b : ndarray) : ndarray :=
  map (fun row => map (dot row) (transpose b)) a.

(** [a @ b]: a [ValueError] when the inner dimensions differ. *)
Definition matmul (a b : ndarray) : result ndarray :=
  if (shape1 a =? shape0 b)%nat then Return (matprod a b)
  else Raise (ValueError "matmul: Input operand 1 has a mismatch in its core dimension 0").

(** ** [rotation_matrix] (lines 7-18) *)

Definition rotation_matrix (lat lon : R) : ndarray :=
  let rlat := radians lat in
  let rlon := radians lon in
  [ [ - sin rlon; - sin rlat * cos rlon; cos rlat * cos rlon ];
    [ cos rlon;   - sin rlat * sin rlon; cos rlat * sin rlon ];
    [ 0;          cos rlat;              sin rlat ] ].

(** ** [vcv_cart2local] and [vcv_local2cart] (lines 21-66) *)

(** The shape test both functions start with: a 3x1 column is padded out
    to the diagonal matrix, a 3x3 matrix is kept, anything else ends in
    [sys.exit]. *)
Definition pad_vcv (vcv : ndarray) : result ndarray :=
  if (shape0 vcv =? 3)%nat then
    if (shape1 vcv =? 1)%nat then
      v0 <- getitem vcv 0 0 ;;
      v1 <- getitem vcv 1 0 ;;
      v2 <- getitem vcv 2 0 ;;
      Return [ [v0; 0; 0]; [0; v1; 0]; [0; 0; v2] ]
    else if (shape1 vcv =? 3)%nat then Return vcv
    else sys_exit "Matrix must be either 3x1 or 3x3"
  else sys_exit "Matrix must be either 3x1 or 3x3".

Definition vcv_cart2local (vcv_cart : ndarray) (lat lon : R) : result ndarray :=
  vcv_cart <- pad_vcv vcv_cart ;;
  let rot_matrix := rotation_matrix lat lon in
  t <- matmul (transpose rot_matrix) vcv_cart ;;
  matmul t rot_matrix.

Definition vcv_local2cart (vcv_local : ndarray) (lat lon : R) : result ndarray :=
  vcv_local <- pad_vcv vcv_local ;;
  let rot_matrix := rotation_matrix lat lon in
  t <- matmul rot_matrix vcv_local ;;
  matmul t (transpose rot_matrix).

(** ** [error_ellipse] (lines 69-80) *)

Definition error_ellipse (vcv : ndarray) : result (R * R * R) :=
  v00 <- getitem vcv 0 0 ;;
  v11 <- getitem vcv 1 1 ;;
  v01 <- getitem vcv 0 1 ;;
  z <- math_sqrt ((v00 - v11) ^ 2 + 4 * v01 ^ 2) ;;
  a <- math_sqrt (0.5 * (v00 + v11 + z)) ;;
  b <- math_sqrt (0.5 * (v00 + v11 - z)) ;;
  let orientation := 90 - degrees (0.5 * atan2 (2 * v01) (v00 - v11)) in
  Return (a, b, orientation).

(** ** [circ_hz_pu] (lines 83-95) *)

Definition circ_hz_pu (a b : R) : result R :=
  let q0 := 1.960790 in
  let q1 := 0.004071 in
  let q2 := 0.114276 in
  let q3 := 0.371625 in
  c <- truediv b a ;;
  let k := q0 + q1 * c + q2 * c ^ 2 + q3 * c ^ 3 in
  let r := a * k in
  Return r.

(** ** Vocabulary of the statements *)

(** The 3x3 array of the nine given entries. *)
Definition mat3 (a b c d e f g h i : R) : ndarray :=
  [ [a; b; c]; [d; e; f]; [g; h; i] ].

Definition identity3 : ndarray := mat3 1 0 0 0 1 0 0 0 1.

(** Entry [(i, j)] of an array, [0] outside of it. *)
Definition entry (m : ndarray) (i j : nat) : R := nth j (nth i m []) 0.

(** The horizontal block of [m]: its entries (0,0), (0,1), (1,0), (1,1). *)
Definition block_symmetric (m : ndarray) : Prop :=
  entry m 0 1 = entry m 1 0.

(** The quadratic form of the horizontal block at the vector [(x, y)]. *)
Definition block_form (m : ndarray) (x y : R) : R :=
  entry m 0 0 * x * x + entry m 0 1 * x * y
  + entry m 1 0 * y * x + entry m 1 1 * y * y.

Definition block_psd (m : ndarray) : Prop :=
  forall x y, 0 <= block_form m x y.

(** The radicand of the semi-minor axis. *)
Definition minor_radicand (m : ndarray) : R :=
  0.5 * (entry m 0 0 + entry m 1 1
         - sqrt ((entry m 0 0 - entry m 1 1) ^ 2 + 4 * entry m 0 1 ^ 2)).

(** The radicand of the semi-major axis. *)
Definition major_radicand (m : ndarray) : R :=
  0.5 * (entry m 0 0 + entry m 1 1
         + sqrt ((entry m 0 0 - entry m 1 1) ^ 2 + 4 * entry m 0 1 ^ 2)).

(** The orientation [error_ellipse] computes. *)
Definition orientation_of (m : ndarray) : R :=
  90 - degrees (0.5 * atan2 (2 * entry m 0 1) (entry m 0 0 - entry m 1 1)).

(** The column of three variances, and the diagonal matrix it is padded
    out to. *)
Definition col3 (vx vy vz : R) : ndarray := [ [vx]; [vy]; [vz] ].

Definition diag3 (vx vy vz : R) : ndarray := mat3 vx 0 0 0 vy 0 0 0 vz.

(** A 3x3 array equal to its transpose. *)
Definition symmetric3 (m : ndarray) : Prop :=
  entry m 0 1 = entry m 1 0 /\ entry m 0 2 = entry m 2 0 /\
  entry m 1 2 = entry m 2 1.

(** Trace and determinant of a 3x3 array. *)
Definition trace3 (m : ndarray) : R :=
  entry m 0 0 + entry m 1 1 + entry m 2 2.

Definition det3 (m : ndarray) : R :=
  entry m 0 0 * (entry m 1 1 * entry m 2 2 - entry m 1 2 * entry m 2 1)
  - entry m 0 1 * (entry m 1 0 * entry m 2 2 - entry m 1 2 * entry m 2 0)
  + entry m 0 2 * (entry m 1 0 * entry m 2 1 - entry m 1 1 * entry m 2 0).

(** The quadratic form of a 3x3 array at the vector [(x, y, z)]. *)
Definition form3 (m : ndarray) (x y z : R) : R :=
  x * (entry m 0 0 * x + entry m 0 1 * y + entry m 0 2 * z)
  + y * (entry m 1 0 * x + entry m 1 1 * y + entry m 1 2 * z)
  + z * (entry m 2 0 * x + entry m 2 1 * y + entry m 2 2 * z).

Definition psd3 (m : ndarray) : Prop :=
  forall x y z, 0 <= form3 m x y z.

(** The polynomial of [circ_hz_pu] in the axis ratio [c]. *)
Definition circ_poly (c : R) : R :=
  1.960790 + 0.004071 * c + 0.114276 * c ^ 2 + 0.371625 * c ^ 3.

(** [k * m] for a number [k] and an array [m]: every entry is scaled. *)
Definition scale (k : R) (m : ndarray) : ndarray := map (map (Rmult k)) m.

(** * The same functions on binary64 numbers

    [error_ellipse] and [circ_hz_pu] again, on the doubles the program
    computes with.  Sums, differences, products, quotients and square roots
    are those of IEEE 754, correctly rounded.  Two functions of the C
    library are not fixed to the last bit by any standard: [pow], behind
    [**], and [atan2].  Their results are taken where they are fixed (an
    exactly representable power, the special operands of [atan2]); anywhere
    else the outcome of the call is [Unspecified]. *)

Module F64.

Import Floats.PrimFloat.
Import PrimInt63.
Local Open Scope float_scope.

Inductive outcome (A : Type) : Type :=
| Returns (a : A)
| Raises (e : exn)
| Unspecified.

Arguments Returns {A} a.
Arguments Raises {A} e.
Arguments Unspecified {A}.

Definition bind {A B : Type} (m : outcome A) (k : A -> outcome B) : outcome B :=
  match m with
  | Returns a => k a
  | Raises e => Raises e
  | Unspecified => Unspecified
  end.

Declare Scope f64_scope.
Notation "x <- m ;; k" := (bind m (fun x => k))
  (at level 61, m at next level, right associativity) : f64_scope.
Local Open Scope f64_scope.

Definition determined {A : Type} (o : option A) : outcome A :=
  match o with
  | Some a => Returns a
  | None => Unspecified
  end.

(** ** [math] on doubles *)

(** [Py_MATH_PI], the double next to pi. *)
Definition Py_MATH_PI : float := 0x1.921fb54442d18p+1.

(** [copysign(c, y)] of C. *)
Definition copysign (c y : float) : float :=
  if get_sign y then - abs c else abs c.

(** [math.degrees]: [x * (180.0 / Py_MATH_PI)]. *)
Definition degrees (x : float) : float := x * (180 / Py_MATH_PI).

(** [math.sqrt]: the square root of C, and a [ValueError] when it gives a
    NaN for an operand that is not one. *)
Definition math_sqrt (x : float) : outcome float :=
  let r := sqrt x in
  if is_nan r && negb (is_nan x) then Raises (ValueError "math domain error")
  else Returns r.

(** [math.atan2]: CPython's [m_atan2] settles the operands that are NaN,
    infinite or zero itself and leaves the others to the C library, whose
    result is not modelled. *)
Definition m_atan2 (y x : float) : option float :=
  if is_nan x || is_nan y then Some nan
  else if is_infinity y then
    if is_infinity x then
      if negb (get_sign x) then Some (copysign (0.25 * Py_MATH_PI) y)
      else Some (copysign (0.75 * Py_MATH_PI) y)
    else Some (copysign (0.5 * Py_MATH_PI) y)
  else if is_infinity x || (y =? 0) then
    if negb (get_sign x) then Some (copysign 0 y)
    else Some (copysign Py_MATH_PI y)
  else None.

(** ** Powers

    [x ** 2] and [x ** 3] are [pow(x, 2.0)] and [pow(x, 3.0)] of the C
    library.  The result is the rounded product for a NaN, an infinity and
    a zero (C, Annex F), and whenever the product is a double: a library
    whose error is below one unit in the last place cannot return
    anything else.  The product is a double when [x] has few enough
    significant bits and nothing overflows or falls below the normal
    range. *)

(** The bits of the 53-bit mantissa of [x] under [mask] are all zero. *)
Definition low_bits_clear (mask : int) (x : float) : bool :=
  let (m, _) := frshiftexp x in
  PrimInt63.eqb (PrimInt63.land (normfr_mantissa m) mask) 0%uint63.

(** At most 26 significant bits: the low 27 bits are zero. *)
Definition significant_bits_le_26 : float -> bool :=
  low_bits_clear 134217727%uint63.

(** At most 17 significant bits: the low 36 bits are zero. *)
Definition significant_bits_le_17 : float -> bool :=
  low_bits_clear 68719476735%uint63.

Definition normal_range (p : float) : bool :=
  is_finite p && (0x1p-1022 <=? abs p).

Definition square (x : float) : option float :=
  let p := x * x in
  if is_nan x || is_infinity x || is_zero x then Some p
  else if significant_bits_le_26 x && normal_range p then Some p
  else None.

Definition cube (x : float) : option float :=
  let s := x * x in
  let p := s * x in
  if is_nan x || is_infinity x || is_zero x then Some p
  else if significant_bits_le_17 x && normal_range s && normal_range p
       then Some p
  else None.

(** ** [error_ellipse] (lines 69-80)

    The entries of the array are [numpy.float64]; their arithmetic signals
    nothing but warnings.  [math.sqrt], [math.atan2] and [math.degrees]
    return Python floats.  The orientation is [None] where [atan2] is left
    to the C library. *)

Definition ndarray : Type := list (list float).

Definition getitem (m : ndarray) (i j : nat) : outcome float :=
  match nth_error m i with
  | Some row =>
      match nth_error row j with
      | Some x => Returns x
      | None => Raises (IndexError "index is out of bounds for axis 1")
      end
  | None => Raises (IndexError "index is out of bounds for axis 0")
  end.

Definition error_ellipse (vcv : ndarray)
  : outcome (float * float * option float) :=
  v00 <- getitem vcv 0 0 ;;
  v11 <- getitem vcv 1 1 ;;
  d2 <- determined (square (v00 - v11)) ;;
  v01 <- getitem vcv 0 1 ;;
  s2 <- determined (square v01) ;;
  z <- math_sqrt (d2 + 4 * s2) ;;
  a <- math_sqrt (0.5 * (v00 + v11 + z)) ;;
  b <- math_sqrt (0.5 * (v00 + v11 - z)) ;;
  let orientation :=
    option_map (fun t => 90 - degrees (0.5 * t))
               (m_atan2 (2 * v01) (v00 - v11)) in
  Returns (a, b, orientation).

(** ** [circ_hz_pu] (lines 83-95)

    The arguments are scalars of either type: a built-in Python float or a
    [numpy.float64].  The quotient of two Python floats raises
    [ZeroDivisionError] when the divisor is zero; as soon as one operand
    is a [numpy.float64] the operation is numpy's, which returns the
    IEEE 754 result (an infinity or a NaN for a zero divisor) as a
    [numpy.float64]. *)

Inductive scalar : Type :=
| Py (x : float)
| Np (x : float).

Definition value (s : scalar) : float :=
  match s with Py x | Np x => x end.

Definition is_np (s : scalar) : bool :=
  match s with Np _ => true | Py _ => false end.

(** The type of the result of an operation on [s] and [t]. *)
Definition like (s t : scalar) (x : float) : scalar :=
  if is_np s || is_np t then Np x else Py x.

Definition smul (s t : scalar) : scalar := like s t (value s * value t).
Definition sadd (s t : scalar) : scalar := like s t (value s + value t).

Definition truediv (s t : scalar) : outcome scalar :=
  if negb (is_np s || is_np t) && (value t =? 0)
  then Raises (ZeroDivisionError "float division by zero")
  else Returns (like s t (value s / value t)).

Definition spow2 (s : scalar) : outcome scalar :=
  p <- determined (square (value s)) ;; Returns (like s s p).

Definition spow3 (s : scalar) : outcome scalar :=
  p <- determined (cube (value s)) ;; Returns (like s s p).

Definition circ_hz_pu (a b : scalar) : outcome scalar :=
  let q0 := Py 1.960790 in
  let q1 := Py 0.004071 in
  let q2 := Py 0.114276 in
  let q3 := Py 0.371625 in
  c <- truediv b a ;;
  c2 <- spow2 c ;;
  c3 <- spow3 c ;;
  let k := sadd (sadd (sadd q0 (smul q1 c)) (smul q2 c2)) (smul q3 c3) in
  let r := smul a k in
  Returns r.

(** ** The real number a double stands for *)

Definition to_R (x : float) : R :=
  match FloatOps.Prim2SF x with
  | SpecFloat.S754_finite s m e =>
      ((if s then -1 else 1) * IZR (Zpos m) * powerRZ 2 e)%R
  | _ => 0%R
  end.

Definition reals (m : ndarray) : list (list R) := map (map to_R) m.

(** ** Three arrays *)

(** A positive definite block of large condition number: the variances
    119 * 2^32 and 11 * 2^-20, the covariance 2304. *)
Definition ill_conditioned : ndarray :=
  [ [511101108224; 2304; 0]; [2304; 0x1.6p-17; 0]; [0; 0; 1] ].



End F64.

(** * Properties *)

(** ** The result monad *)

Lemma bind_Return {A B} (a : A) (k : A -> result B) : bind (Return a) k = k a.
Proof. reflexivity. Qed.

Lemma bind_Raise {A B} (e : exn) (k : A -> result B) : bind (Raise e) k = Raise e.
Proof. reflexivity. Qed.

(** ** Arrays of three rows and three columns *)

Lemma has_shape_3_3 m :
  has_shape 3 3 m = true ->
  exists a b c d e f g h i, m = mat3 a b c d e f g h i.
Proof.
  unfold has_shape. intros H.
  apply andb_prop in H. destruct H as [Hl Hr].
  apply Nat.eqb_eq in Hl.
  destruct m as [|r0 [|r1 [|r2 [|]]]]; try discriminate Hl.
  simpl in Hr.
  repeat (apply andb_prop in Hr; destruct Hr as [? Hr]).
  repeat match goal with
         | H : (List.length _ =? 3)%nat = true |- _ => apply Nat.eqb_eq in H
         end.
  destruct r0 as [|a [|b [|c [|]]]]; try discriminate.
  destruct r1 as [|d [|e [|f [|]]]]; try discriminate.
  destruct r2 as [|g [|h [|i [|]]]]; try discriminate.
  now exists a, b, c, d, e, f, g, h, i.
Qed.

Ltac array_eq :=
  unfold mat3, identity3; cbn [matprod transpose column shape1 shape0 map seq nth dot List.length];
  repeat (f_equal; try ring).

Lemma transpose_mat3 a b c d e f g h i :
  transpose (mat3 a b c d e f g h i) = mat3 a d g b e h c f i.
Proof. reflexivity. Qed.

Lemma matprod_mat3 a b c d e f g h i a' b' c' d' e' f' g' h' i' :
  matprod (mat3 a b c d e f g h i) (mat3 a' b' c' d' e' f' g' h' i') =
  mat3 (a * a' + b * d' + c * g') (a * b' + b * e' + c * h') (a * c' + b * f' + c * i')
       (d * a' + e * d' + f * g') (d * b' + e * e' + f * h') (d * c' + e * f' + f * i')
       (g * a' + h * d' + i * g') (g * b' + h * e' + i * h') (g * c' + h * f' + i * i').
Proof. array_eq. Qed.

Lemma matmul_mat3 a b c d e f g h i a' b' c' d' e' f' g' h' i' :
  matmul (mat3 a b c d e f g h i) (mat3 a' b' c' d' e' f' g' h' i') =
  Return (matprod (mat3 a b c d e f g h i) (mat3 a' b' c' d' e' f' g' h' i')).
Proof. reflexivity. Qed.

Lemma matprod_assoc3 m n p :
  has_shape 3 3 m = true -> has_shape 3 3 n = true -> has_shape 3 3 p = true ->
  matprod (matprod m n) p = matprod m (matprod n p).
Proof.
  intros Hm Hn Hp.
  destruct (has_shape_3_3 m Hm) as (a & b & c & d & e & f & g & h & i & ->).
  destruct (has_shape_3_3 n Hn) as (a' & b' & c' & d' & e' & f' & g' & h' & i' & ->).
  destruct (has_shape_3_3 p Hp) as (a2 & b2 & c2 & d2 & e2 & f2 & g2 & h2 & i2 & ->).
  rewrite !matprod_mat3. unfold mat3. repeat (f_equal; try ring).
Qed.

Lemma matprod_identity_l m :
  has_shape 3 3 m = true -> matprod identity3 m = m.
Proof.
  intros Hm.
  destruct (has_shape_3_3 m Hm) as (a & b & c & d & e & f & g & h & i & ->).
  unfold identity3. rewrite matprod_mat3. unfold mat3. repeat (f_equal; try ring).
Qed.

Lemma matprod_identity_r m :
  has_shape 3 3 m = true -> matprod m identity3 = m.
Proof.
  intros Hm.
  destruct (has_shape_3_3 m Hm) as (a & b & c & d & e & f & g & h & i & ->).
  unfold identity3. rewrite matprod_mat3. unfold mat3. repeat (f_equal; try ring).
Qed.

Lemma has_shape_matprod3 m n :
  has_shape 3 3 m = true -> has_shape 3 3 n = true ->
  has_shape 3 3 (matprod m n) = true.
Proof.
  intros Hm Hn.
  destruct (has_shape_3_3 m Hm) as (a & b & c & d & e & f & g & h & i & ->).
  destruct (has_shape_3_3 n Hn) as (a' & b' & c' & d' & e' & f' & g' & h' & i' & ->).
  reflexivity.
Qed.

(** ** The rotation matrix is orthonormal *)

Lemma rotation_matrix_shape lat lon :
  has_shape 3 3 (rotation_matrix lat lon) = true.
Proof. reflexivity. Qed.

Lemma rotation_matrix_mat3 lat lon :
  rotation_matrix lat lon =
  mat3 (- sin (radians lon)) (- sin (radians lat) * cos (radians lon))
       (cos (radians lat) * cos (radians lon))
       (cos (radians lon)) (- sin (radians lat) * sin (radians lon))
       (cos (radians lat) * sin (radians lon))
       0 (cos (radians lat)) (sin (radians lat)).
Proof. reflexivity. Qed.

Lemma sin_cos_unit x : sin x * sin x + cos x * cos x = 1.
Proof. pose proof (sin2_cos2 x) as H. unfold Rsqr in H. exact H. Qed.

Lemma rotation_matrix_orthonormal_r lat lon :
  matprod (rotation_matrix lat lon) (transpose (rotation_matrix lat lon)) = identity3.
Proof.
  rewrite rotation_matrix_mat3, transpose_mat3, matprod_mat3.
  pose proof (sin_cos_unit (radians lat)) as Hlat.
  pose proof (sin_cos_unit (radians lon)) as Hlon.
  generalize dependent (sin (radians lat)). generalize dependent (cos (radians lat)).
  generalize dependent (sin (radians lon)). generalize dependent (cos (radians lon)).
  intros co so Hlon ca sa Hlat.
  unfold identity3, mat3.
  repeat f_equal; nsatz.
Qed.

Lemma rotation_matrix_orthonormal_l lat lon :
  matprod (transpose (rotation_matrix lat lon)) (rotation_matrix lat lon) = identity3.
Proof.
  rewrite rotation_matrix_mat3, transpose_mat3, matprod_mat3.
  pose proof (sin_cos_unit (radians lat)) as Hlat.
  pose proof (sin_cos_unit (radians lon)) as Hlon.
  generalize dependent (sin (radians lat)). generalize dependent (cos (radians lat)).
  generalize dependent (sin (radians lon)). generalize dependent (cos (radians lon)).
  intros co so Hlon ca sa Hlat.
  unfold identity3, mat3.
  repeat f_equal; nsatz.
Qed.

Lemma transpose_rotation_shape lat lon :
  has_shape 3 3 (transpose (rotation_matrix lat lon)) = true.
Proof. reflexivity. Qed.

(** ** The frame conversions on a 3x3 array *)

Lemma pad_vcv_3x3 V : has_shape 3 3 V = true -> pad_vcv V = Return V.
Proof.
  intros HV.
  destruct (has_shape_3_3 V HV) as (a & b & c & d & e & f & g & h & i & ->).
  reflexivity.
Qed.

Lemma vcv_cart2local_3x3 V lat lon :
  has_shape 3 3 V = true ->
  vcv_cart2local V lat lon =
  Return (matprod (matprod (transpose (rotation_matrix lat lon)) V)
                  (rotation_matrix lat lon)).
Proof.
  intros HV. unfold vcv_cart2local. rewrite (pad_vcv_3x3 V HV), bind_Return.
  destruct (has_shape_3_3 V HV) as (a & b & c & d & e & f & g & h & i & ->).
  reflexivity.
Qed.

Lemma vcv_local2cart_3x3 V lat lon :
  has_shape 3 3 V = true ->
  vcv_local2cart V lat lon =
  Return (matprod (matprod (rotation_matrix lat lon) V)
                  (transpose (rotation_matrix lat lon))).
Proof.
  intros HV. unfold vcv_local2cart. rewrite (pad_vcv_3x3 V HV), bind_Return.
  destruct (has_shape_3_3 V HV) as (a & b & c & d & e & f & g & h & i & ->).
  reflexivity.
Qed.

(** C1.  Round trip of the frame conversions: for every 3x3 array [V]
    (symmetric or not) and all [lat], [lon], converting [V] to the local
    frame and the result back to the Cartesian frame returns [V] itself;
    the rotation matrix times its transpose is the identity. *)
Theorem vcv_round_trip V lat lon :
  has_shape 3 3 V = true ->
  (L <- vcv_cart2local V lat lon ;; vcv_local2cart L lat lon) = Return V.
Proof.
  intros HV.
  pose proof (rotation_matrix_shape lat lon) as HR.
  pose proof (transpose_rotation_shape lat lon) as HT.
  rewrite (vcv_cart2local_3x3 V lat lon HV), bind_Return.
  rewrite vcv_local2cart_3x3 by auto using has_shape_matprod3.
  f_equal.
  set (Q := rotation_matrix lat lon) in *.
  rewrite (matprod_assoc3 (transpose Q) V Q) by assumption.
  rewrite <- (matprod_assoc3 Q (transpose Q) (matprod V Q))
    by auto using has_shape_matprod3.
  unfold Q at 1 2. rewrite rotation_matrix_orthonormal_r. fold Q.
  rewrite matprod_identity_l by auto using has_shape_matprod3.
  rewrite (matprod_assoc3 V Q (transpose Q)) by assumption.
  unfold Q. rewrite rotation_matrix_orthonormal_r.
  now apply matprod_identity_r.
Qed.

Lemma vcv_round_trip_witness :
  (L <- vcv_cart2local (mat3 4 1 0 1 9 2 0 2 16) (-37) 145 ;;
   vcv_local2cart L (-37) 145) = Return (mat3 4 1 0 1 9 2 0 2 16).
Proof. apply vcv_round_trip. reflexivity. Defined.

(** ** Shape rejection *)

Lemma sys_exit_NameError {A} msg : @sys_exit A msg = Raise (NameError "sys").
Proof. reflexivity. Qed.

Lemma pad_vcv_rejects m :
  shape0 m <> 3%nat \/ (shape1 m <> 1%nat /\ shape1 m <> 3%nat) ->
  pad_vcv m = Raise (NameError "sys").
Proof.
  intros H. unfold pad_vcv.
  destruct (Nat.eqb_spec (shape0 m) 3) as [E0|E0].
  - destruct H as [H|[H1 H3]]; [contradiction|].
    destruct (Nat.eqb_spec (shape1 m) 1) as [E1|E1]; [contradiction|].
    destruct (Nat.eqb_spec (shape1 m) 3) as [E3|E3]; [contradiction|].
    apply sys_exit_NameError.
  - apply sys_exit_NameError.
Qed.

(** C2, on the code.  An array whose number of rows is not 3, or whose
    number of columns is neither 1 nor 3, makes both [vcv_cart2local] and
    [vcv_local2cart] raise at the shape test and return no array.  The
    exception is not the one the code reaches for: the module never
    imports [sys], so the call [sys.exit('Matrix must be either 3x1 or
    3x3')] fails at the name [sys] with [NameError], and the message of the
    shape test is never delivered. *)
Theorem vcv_shape_rejection m lat lon :
  shape0 m <> 3%nat \/ (shape1 m <> 1%nat /\ shape1 m <> 3%nat) ->
  vcv_cart2local m lat lon = Raise (NameError "sys") /\
  vcv_local2cart m lat lon = Raise (NameError "sys").
Proof.
  intros H. unfold vcv_cart2local, vcv_local2cart.
  rewrite (pad_vcv_rejects m H). split; reflexivity.
Qed.

Lemma vcv_shape_rejection_witness :
  vcv_cart2local [[1; 2]; [3; 4]] 0 0 = Raise (NameError "sys") /\
  vcv_local2cart [[1; 2]; [3; 4]] 0 0 = Raise (NameError "sys").
Proof. apply vcv_shape_rejection. left. cbn. discriminate. Defined.

(** ** The coverage factor *)

Lemma ttable_p95_length : List.length ttable_p95 = 120%nat.
Proof. reflexivity. Qed.

Lemma list_getitem_in_range {A} (l : list A) (i : Z) :
  (0 <= i < Z.of_nat (List.length l))%Z ->
  exists a, nth_error l (Z.to_nat i) = Some a /\ list_getitem l i = Return a.
Proof.
  intros Hi. unfold list_getitem.
  destruct (Z.ltb_spec i 0) as [Hn|_]; [lia|].
  destruct (Z.leb_spec 0 i) as [_|Hn]; [|lia].
  destruct (Z.ltb_spec i (Z.of_nat (List.length l))) as [_|Hn]; [|lia].
  cbn [andb].
  destruct (nth_error l (Z.to_nat i)) as [a|] eqn:E.
  - now exists a.
  - apply nth_error_None in E. lia.
Qed.

(** C8.  For an integer [dof], [k_val95] returns the entry of the table at
    index [dof - 1] when [1 <= dof <= 120], the entry for [dof = 1],
    12.7062, when [dof < 1], and 1.96 when [dof > 120]; so [k_val95(1)] and
    [k_val95(0)] are 12.7062, [k_val95(120)] is 1.97993 and [k_val95(121)]
    is 1.96. *)
Theorem k_val95_int (dof : Z) :
  ((1 <= dof <= 120)%Z ->
     exists k, nth_error ttable_p95 (Z.to_nat (dof - 1)) = Some k /\
               k_val95 (PyInt dof) = Return k) /\
  ((dof < 1)%Z -> k_val95 (PyInt dof) = Return 12.7062) /\
  ((dof > 120)%Z -> k_val95 (PyInt dof) = Return 1.96) /\
  k_val95 (PyInt 1) = Return 12.7062 /\
  k_val95 (PyInt 0) = Return 12.7062 /\
  k_val95 (PyInt 120) = Return 1.97993 /\
  k_val95 (PyInt 121) = Return 1.96.
Proof.
  repeat split; try reflexivity.
  - intros Hd. unfold k_val95. cbn [isinstance_int negb int_value].
    destruct (Z.ltb_spec dof 1) as [Hn|_]; [lia|].
    destruct (Z.gtb_spec dof 120) as [Hn|_]; [lia|].
    apply list_getitem_in_range. rewrite ttable_p95_length. lia.
  - intros Hd. unfold k_val95. cbn [isinstance_int negb int_value].
    destruct (Z.ltb_spec dof 1) as [_|Hn]; [|lia]. reflexivity.
  - intros Hd. unfold k_val95. cbn [isinstance_int negb int_value].
    destruct (Z.ltb_spec dof 1) as [Hn|_]; [lia|].
    destruct (Z.gtb_spec dof 120) as [_|Hn]; [|lia]. reflexivity.
Qed.

Lemma k_val95_int_witness :
  (exists k, nth_error ttable_p95 (Z.to_nat (60 - 1)) = Some k /\
             k_val95 (PyInt 60) = Return k) /\
  k_val95 (PyInt (-5)) = Return 12.7062 /\
  k_val95 (PyInt 500) = Return 1.96.
Proof.
  split; [|split].
  - apply (proj1 (k_val95_int 60)). lia.
  - apply (proj1 (proj2 (k_val95_int (-5)))). lia.
  - apply (proj1 (proj2 (proj2 (k_val95_int 500)))). lia.
Defined.

(** C9.  An argument that is not an instance of [int] makes [k_val95]
    raise [TypeError] and return nothing; a float whose value is a whole
    number, such as [2.0], is rejected like any other float. *)
Theorem k_val95_type_error (dof : pyval) :
  isinstance_int dof = false ->
  k_val95 dof = Raise (TypeError "Degrees of Freedom must be Int").
Proof. intros H. unfold k_val95. now rewrite H. Qed.

Lemma k_val95_type_error_witness :
  k_val95 (PyFloat 2.0) = Raise (TypeError "Degrees of Freedom must be Int").
Proof. apply k_val95_type_error. reflexivity. Defined.

(** ** The error ellipse *)

Lemma math_sqrt_nonneg x : 0 <= x -> math_sqrt x = Return (sqrt x).
Proof. intros H. unfold math_sqrt. destruct (Rlt_dec x 0); [lra | reflexivity]. Qed.

Lemma math_sqrt_neg x : x < 0 -> math_sqrt x = Raise (ValueError "math domain error").
Proof. intros H. unfold math_sqrt. destruct (Rlt_dec x 0); [reflexivity | lra]. Qed.

Lemma discriminant_nonneg (p q r : R) : 0 <= (p - q) ^ 2 + 4 * r ^ 2.
Proof. pose proof (pow2_ge_0 (p - q)). pose proof (pow2_ge_0 r). lra. Qed.

Lemma error_ellipse_mat3 a b c d e f g h i :
  error_ellipse (mat3 a b c d e f g h i) =
  (z <- math_sqrt ((a - e) ^ 2 + 4 * b ^ 2) ;;
   sa <- math_sqrt (0.5 * (a + e + z)) ;;
   sb <- math_sqrt (0.5 * (a + e - z)) ;;
   Return (sa, sb, 90 - degrees (0.5 * atan2 (2 * b) (a - e)))).
Proof. reflexivity. Qed.

Lemma radicand_le V : minor_radicand V <= major_radicand V.
Proof.
  unfold minor_radicand, major_radicand.
  pose proof (sqrt_pos ((entry V 0 0 - entry V 1 1) ^ 2 + 4 * entry V 0 1 ^ 2)).
  lra.
Qed.

(** With a radicand that is not negative, all three square roots are
    taken and the triple is returned. *)
Lemma error_ellipse_returns V :
  has_shape 3 3 V = true -> 0 <= minor_radicand V ->
  error_ellipse V =
  Return (sqrt (major_radicand V), sqrt (minor_radicand V), orientation_of V).
Proof.
  intros HV Hm. pose proof (radicand_le V) as Hle.
  destruct (has_shape_3_3 V HV) as (a & b & c & d & e & f & g & h & i & ->).
  rewrite error_ellipse_mat3.
  unfold minor_radicand, major_radicand, orientation_of, entry, mat3 in *.
  cbn [nth] in *.
  rewrite math_sqrt_nonneg by apply discriminant_nonneg. rewrite bind_Return.
  rewrite math_sqrt_nonneg by lra. rewrite bind_Return.
  rewrite math_sqrt_nonneg by lra. reflexivity.
Qed.

(** With a negative radicand, [math.sqrt] raises: at the semi-major axis
    when its radicand is negative too, at the semi-minor axis otherwise. *)
Lemma error_ellipse_raises V :
  has_shape 3 3 V = true -> minor_radicand V < 0 ->
  error_ellipse V = Raise (ValueError "math domain error").
Proof.
  intros HV Hm.
  destruct (has_shape_3_3 V HV) as (a & b & c & d & e & f & g & h & i & ->).
  rewrite error_ellipse_mat3.
  unfold minor_radicand, entry, mat3 in *. cbn [nth] in *.
  rewrite math_sqrt_nonneg by apply discriminant_nonneg. rewrite bind_Return.
  destruct (Rlt_dec (0.5 * (a + e + sqrt ((a - e) ^ 2 + 4 * b ^ 2))) 0) as [Hn|Hn].
  - now rewrite math_sqrt_neg.
  - rewrite math_sqrt_nonneg by lra. rewrite bind_Return.
    now rewrite math_sqrt_neg.
Qed.

Lemma sqrt_9 : sqrt ((4 - 1) ^ 2 + 4 * 0 ^ 2) = 3.
Proof.
  replace ((4 - 1) ^ 2 + 4 * 0 ^ 2) with (3 * 3) by ring.
  apply sqrt_square. lra.
Qed.

Lemma atan2_0_pos x : 0 < x -> atan2 0 x = 0.
Proof.
  intros Hx. unfold atan2. destruct (Rlt_dec 0 x); [|contradiction].
  unfold Rdiv. rewrite Rmult_0_l. apply atan_0.
Qed.

Lemma error_ellipse_diag_4_1 c f g h i :
  error_ellipse (mat3 4 0 c 0 1 f g h i) = Return (2, 1, 90).
Proof.
  rewrite error_ellipse_mat3.
  rewrite math_sqrt_nonneg by apply discriminant_nonneg. rewrite bind_Return.
  rewrite sqrt_9.
  rewrite math_sqrt_nonneg by lra. rewrite bind_Return.
  rewrite math_sqrt_nonneg by lra. rewrite bind_Return.
  replace (0.5 * (4 + 1 + 3)) with (2 * 2) by lra.
  replace (0.5 * (4 + 1 - 3)) with (1 * 1) by lra.
  rewrite !sqrt_square by lra.
  replace (2 * 0) with 0 by ring.
  rewrite atan2_0_pos by lra.
  unfold degrees. repeat f_equal. unfold Rdiv. ring.
Qed.

(** C3, as the code has it.  For a 3x3 input whose horizontal block is
    diag(4, 1), [error_ellipse] returns the semi-major axis 2, the
    semi-minor axis 1 and the orientation 90 degrees: [atan2(0, 3)] is 0,
    and the orientation is 90 minus half of it. *)
Theorem error_ellipse_diag_block V :
  has_shape 3 3 V = true ->
  entry V 0 0 = 4 -> entry V 1 1 = 1 -> entry V 0 1 = 0 -> entry V 1 0 = 0 ->
  error_ellipse V = Return (2, 1, 90).
Proof.
  intros HV H00 H11 H01 H10.
  destruct (has_shape_3_3 V HV) as (a & b & c & d & e & f & g & h & i & ->).
  unfold entry, mat3 in *. cbn [nth] in *. subst a b d e.
  apply error_ellipse_diag_4_1.
Qed.

Lemma error_ellipse_diag_block_witness :
  error_ellipse (mat3 4 0 0 0 1 0 0 0 1) = Return (2, 1, 90).
Proof. apply error_ellipse_diag_block; reflexivity. Defined.

(** C3, as the claim has it, fails: on diag(4, 1, 1) the triple returned
    is not (2, 1, 0). *)
Lemma error_ellipse_diag_not_zero :
  error_ellipse (mat3 4 0 0 0 1 0 0 0 1) <> Return (2, 1, 0).
Proof.
  rewrite error_ellipse_diag_4_1. intros H.
  injection H as H. lra.
Qed.

(** *** Positive semi-definite blocks *)

Section Block.

Variables p q r : R.

Lemma form_nonneg x y :
  0 <= p + q -> r * r <= p * q ->
  0 <= p * x * x + r * x * y + r * y * x + q * y * y.
Proof.
  intros Ht Hd.
  destruct (Req_dec (p + q) 0) as [E|E].
  - assert (Hp : p = - q) by lra. subst p.
    assert (Hq : q = 0) by nra. subst q.
    assert (Hr : r = 0) by nra. subst r. lra.
  - apply Rmult_le_reg_l with (p + q); [lra|].
    rewrite Rmult_0_r.
    replace ((p + q) * (p * x * x + r * x * y + r * y * x + q * y * y))
      with ((p * x + r * y) * (p * x + r * y)
            + (r * x + q * y) * (r * x + q * y)
            + (p * q - r * r) * (x * x + y * y)) by ring.
    pose proof (Rle_0_sqr (p * x + r * y)) as H1.
    pose proof (Rle_0_sqr (r * x + q * y)) as H2.
    pose proof (Rle_0_sqr x) as H3. pose proof (Rle_0_sqr y) as H4.
    unfold Rsqr in *.
    assert (0 <= (p * q - r * r) * (x * x + y * y))
      by (apply Rmult_le_pos; lra).
    lra.
Qed.

Lemma psd_trace_det :
  (forall x y, 0 <= p * x * x + r * x * y + r * y * x + q * y * y) ->
  0 <= p + q /\ r * r <= p * q.
Proof.
  intros H.
  pose proof (H 1 0) as Hp. pose proof (H 0 1) as Hq.
  pose proof (H r (- p)) as H1. pose proof (H (- q) r) as H2.
  pose proof (H 1 1) as H3. pose proof (H 1 (-1)) as H4.
  split; [lra|].
  destruct (Req_dec p 0) as [Ep|Ep].
  - destruct (Req_dec q 0) as [Eq|Eq].
    + subst p q. assert (r = 0) by lra. subst r. lra.
    + assert (0 < q) by lra.
      apply Rmult_le_reg_l with q; [assumption|]. nra.
  - assert (0 < p) by lra.
    apply Rmult_le_reg_l with p; [assumption|]. nra.
Qed.

Lemma sqrt_D_le_trace :
  0 <= p + q -> r * r <= p * q ->
  sqrt ((p - q) ^ 2 + 4 * r ^ 2) <= p + q.
Proof.
  intros Ht Hd.
  rewrite <- (sqrt_square (p + q)) by assumption.
  apply sqrt_le_1_alt. nra.
Qed.

End Block.

Lemma block_psd_radicand V :
  block_symmetric V -> block_psd V -> 0 <= minor_radicand V.
Proof.
  unfold block_symmetric, block_psd, block_form, minor_radicand.
  intros Hs Hp. rewrite <- Hs in Hp.
  destruct (psd_trace_det _ _ _ Hp) as [Ht Hd].
  pose proof (sqrt_D_le_trace _ _ _ Ht Hd). lra.
Qed.

(** *** The orientation *)









(** ** The circularised radius *)

Lemma truediv_nonzero x y : y <> 0 -> truediv x y = Return (x / y).
Proof. intros H. unfold truediv. destruct (Req_dec_T y 0); [contradiction | reflexivity]. Qed.

Lemma truediv_zero x : truediv x 0 = Raise (ZeroDivisionError "float division by zero").
Proof. unfold truediv. destruct (Req_dec_T 0 0) as [_|H]; [reflexivity | now elim H]. Qed.

(** C6.  For [a > 0] and any [b], [circ_hz_pu(a, b)] returns
    [a * (1.960790 + 0.004071*c + 0.114276*c^2 + 0.371625*c^3)] with
    [c = b/a]; [circ_hz_pu(1, 1)] is the sum of the four constants,
    2.450762. *)
Theorem circ_hz_pu_formula a b :
  0 < a ->
  circ_hz_pu a b =
    Return (a * (1.960790 + 0.004071 * (b / a) + 0.114276 * (b / a) ^ 2
                 + 0.371625 * (b / a) ^ 3)) /\
  circ_hz_pu 1 1 = Return (1.960790 + 0.004071 + 0.114276 + 0.371625) /\
  1.960790 + 0.004071 + 0.114276 + 0.371625 = 2.450762.
Proof.
  intros Ha. unfold circ_hz_pu. split; [|split].
  - rewrite truediv_nonzero by lra. reflexivity.
  - rewrite truediv_nonzero by lra. rewrite bind_Return. cbv zeta. f_equal. lra.
  - lra.
Qed.

Lemma circ_hz_pu_formula_witness :
  circ_hz_pu 2 1 =
    Return (2 * (1.960790 + 0.004071 * (1 / 2) + 0.114276 * (1 / 2) ^ 2
                 + 0.371625 * (1 / 2) ^ 3)) /\
  circ_hz_pu 1 1 = Return (1.960790 + 0.004071 + 0.114276 + 0.371625) /\
  1.960790 + 0.004071 + 0.114276 + 0.371625 = 2.450762.
Proof. apply (circ_hz_pu_formula 2 1). lra. Defined.

(** * Further properties of the module *)

(** ** The rotation matrix *)

(** X1.  For every latitude and longitude the rotation matrix is
    orthonormal: its product with its transpose is the identity, on either
    side. *)
Theorem rotation_matrix_is_orthonormal lat lon :
  matmul (transpose (rotation_matrix lat lon)) (rotation_matrix lat lon)
    = Return identity3 /\
  matmul (rotation_matrix lat lon) (transpose (rotation_matrix lat lon))
    = Return identity3.
Proof.
  split.
  - rewrite <- (rotation_matrix_orthonormal_l lat lon). reflexivity.
  - rewrite <- (rotation_matrix_orthonormal_r lat lon). reflexivity.
Qed.

Ltac trig_vars lat lon :=
  let Hlat := fresh "Hlat" in
  let Hlon := fresh "Hlon" in
  pose proof (sin_cos_unit (radians lat)) as Hlat;
  pose proof (sin_cos_unit (radians lon)) as Hlon;
  generalize dependent (sin (radians lat));
  generalize dependent (cos (radians lat));
  generalize dependent (sin (radians lon));
  generalize dependent (cos (radians lon));
  intros co so Hlon ca sa Hlat.

(** X2.  The determinant of the rotation matrix is 1, never -1: the
    matrix is a proper rotation. *)
Theorem rotation_matrix_det lat lon : det3 (rotation_matrix lat lon) = 1.
Proof.
  rewrite rotation_matrix_mat3. unfold det3, entry, mat3. cbn [nth].
  trig_vars lat lon. nsatz.
Qed.

(** ** The frame conversions *)

Lemma matprod_sandwich_r V lat lon :
  has_shape 3 3 V = true ->
  matprod
    (matprod (rotation_matrix lat lon)
       (matprod (matprod (transpose (rotation_matrix lat lon)) V)
                (rotation_matrix lat lon)))
    (transpose (rotation_matrix lat lon)) = V.
Proof.
  intros HV.
  pose proof (rotation_matrix_shape lat lon) as HR.
  pose proof (transpose_rotation_shape lat lon) as HT.
  set (Q := rotation_matrix lat lon) in *.
  rewrite (matprod_assoc3 (transpose Q) V Q) by assumption.
  rewrite <- (matprod_assoc3 Q (transpose Q) (matprod V Q))
    by auto using has_shape_matprod3.
  unfold Q at 1 2. rewrite rotation_matrix_orthonormal_r. fold Q.
  rewrite matprod_identity_l by auto using has_shape_matprod3.
  rewrite (matprod_assoc3 V Q (transpose Q)) by assumption.
  unfold Q. rewrite rotation_matrix_orthonormal_r.
  now apply matprod_identity_r.
Qed.

Lemma matprod_sandwich_l V lat lon :
  has_shape 3 3 V = true ->
  matprod
    (matprod (transpose (rotation_matrix lat lon))
       (matprod (matprod (rotation_matrix lat lon) V)
                (transpose (rotation_matrix lat lon))))
    (rotation_matrix lat lon) = V.
Proof.
  intros HV.
  pose proof (rotation_matrix_shape lat lon) as HR.
  pose proof (transpose_rotation_shape lat lon) as HT.
  set (Q := rotation_matrix lat lon) in *.
  rewrite (matprod_assoc3 Q V (transpose Q)) by assumption.
  rewrite <- (matprod_assoc3 (transpose Q) Q (matprod V (transpose Q)))
    by auto using has_shape_matprod3.
  unfold Q at 1 2. rewrite rotation_matrix_orthonormal_l. fold Q.
  rewrite matprod_identity_l by auto using has_shape_matprod3.
  rewrite (matprod_assoc3 V (transpose Q) Q) by assumption.
  unfold Q. rewrite rotation_matrix_orthonormal_l.
  now apply matprod_identity_r.
Qed.

(** X3.  The round trip in the other direction: converting a 3x3 array
    from the local to the Cartesian frame and the result back returns the
    array itself. *)
Theorem vcv_local_round_trip V lat lon :
  has_shape 3 3 V = true ->
  (C <- vcv_local2cart V lat lon ;; vcv_cart2local C lat lon) = Return V.
Proof.
  intros HV.
  pose proof (rotation_matrix_shape lat lon) as HR.
  pose proof (transpose_rotation_shape lat lon) as HT.
  rewrite (vcv_local2cart_3x3 V lat lon HV), bind_Return.
  rewrite vcv_cart2local_3x3 by auto using has_shape_matprod3.
  f_equal. now apply matprod_sandwich_l.
Qed.

Lemma vcv_local_round_trip_witness :
  (C <- vcv_local2cart (mat3 4 1 0 1 9 2 0 2 16) (-37) 145 ;;
   vcv_cart2local C (-37) 145) = Return (mat3 4 1 0 1 9 2 0 2 16).
Proof. apply vcv_local_round_trip. reflexivity. Defined.

Lemma has_shape_3_1 m :
  has_shape 3 1 m = true -> exists vx vy vz, m = col3 vx vy vz.
Proof.
  unfold has_shape. intros H.
  apply andb_prop in H. destruct H as [Hl Hr].
  apply Nat.eqb_eq in Hl.
  destruct m as [|r0 [|r1 [|r2 [|]]]]; try discriminate Hl.
  simpl in Hr.
  repeat (apply andb_prop in Hr; destruct Hr as [? Hr]).
  repeat match goal with
         | H : (List.length _ =? 1)%nat = true |- _ => apply Nat.eqb_eq in H
         end.
  destruct r0 as [|vx [|]]; try discriminate.
  destruct r1 as [|vy [|]]; try discriminate.
  destruct r2 as [|vz [|]]; try discriminate.
  now exists vx, vy, vz.
Qed.

Lemma pad_vcv_col3 vx vy vz : pad_vcv (col3 vx vy vz) = Return (diag3 vx vy vz).
Proof. reflexivity. Qed.

(** X4.  A 3x1 column of variances is padded out to the diagonal matrix:
    both conversions return on it exactly what they return on
    diag(vx, vy, vz), and that is a full 3x3 array, not a 3x1 column. *)
Theorem vcv_column_expansion m lat lon :
  has_shape 3 1 m = true ->
  let d := diag3 (entry m 0 0) (entry m 1 0) (entry m 2 0) in
  (exists L, vcv_cart2local m lat lon = Return L /\
             vcv_cart2local d lat lon = Return L /\
             has_shape 3 3 L = true) /\
  (exists C, vcv_local2cart m lat lon = Return C /\
             vcv_local2cart d lat lon = Return C /\
             has_shape 3 3 C = true).
Proof.
  intros Hm.
  destruct (has_shape_3_1 m Hm) as (vx & vy & vz & ->).
  pose proof (rotation_matrix_shape lat lon) as HR.
  pose proof (transpose_rotation_shape lat lon) as HT.
  assert (Hd : has_shape 3 3 (diag3 vx vy vz) = true) by reflexivity.
  cbv zeta.
  change (entry (col3 vx vy vz) 0 0) with vx.
  change (entry (col3 vx vy vz) 1 0) with vy.
  change (entry (col3 vx vy vz) 2 0) with vz.
  assert (Hc : vcv_cart2local (col3 vx vy vz) lat lon
               = vcv_cart2local (diag3 vx vy vz) lat lon).
  { unfold vcv_cart2local.
    now rewrite pad_vcv_col3, (pad_vcv_3x3 _ Hd). }
  assert (Hl : vcv_local2cart (col3 vx vy vz) lat lon
               = vcv_local2cart (diag3 vx vy vz) lat lon).
  { unfold vcv_local2cart.
    now rewrite pad_vcv_col3, (pad_vcv_3x3 _ Hd). }
  rewrite Hc, Hl.
  rewrite (vcv_cart2local_3x3 _ lat lon Hd), (vcv_local2cart_3x3 _ lat lon Hd).
  split; eexists; (split; [reflexivity | split; [reflexivity|]]);
    auto using has_shape_matprod3.
Qed.

Lemma vcv_column_expansion_witness :
  let d := diag3 0.0001 0.0001 0.0002 in
  (exists L, vcv_cart2local (col3 0.0001 0.0001 0.0002) (-37) 145 = Return L /\
             vcv_cart2local d (-37) 145 = Return L /\
             has_shape 3 3 L = true) /\
  (exists C, vcv_local2cart (col3 0.0001 0.0001 0.0002) (-37) 145 = Return C /\
             vcv_local2cart d (-37) 145 = Return C /\
             has_shape 3 3 C = true).
Proof.
  apply (vcv_column_expansion (col3 0.0001 0.0001 0.0002) (-37) 145).
  reflexivity.
Defined.

(** X5.  A 3x1 column does not survive the round trip as a column: the
    conversion to the local frame and back returns the 3x3 diagonal matrix
    of the three variances. *)
Theorem vcv_column_round_trip m lat lon :
  has_shape 3 1 m = true ->
  (L <- vcv_cart2local m lat lon ;; vcv_local2cart L lat lon)
  = Return (diag3 (entry m 0 0) (entry m 1 0) (entry m 2 0)).
Proof.
  intros Hm.
  destruct (has_shape_3_1 m Hm) as (vx & vy & vz & ->).
  pose proof (rotation_matrix_shape lat lon) as HR.
  pose proof (transpose_rotation_shape lat lon) as HT.
  assert (Hd : has_shape 3 3 (diag3 vx vy vz) = true) by reflexivity.
  change (entry (col3 vx vy vz) 0 0) with vx.
  change (entry (col3 vx vy vz) 1 0) with vy.
  change (entry (col3 vx vy vz) 2 0) with vz.
  assert (Hc : vcv_cart2local (col3 vx vy vz) lat lon
               = vcv_cart2local (diag3 vx vy vz) lat lon).
  { unfold vcv_cart2local.
    now rewrite pad_vcv_col3, (pad_vcv_3x3 _ Hd). }
  rewrite Hc, (vcv_cart2local_3x3 _ lat lon Hd), bind_Return.
  rewrite vcv_local2cart_3x3 by auto using has_shape_matprod3.
  f_equal. now apply matprod_sandwich_r.
Qed.

Lemma vcv_column_round_trip_witness :
  (L <- vcv_cart2local (col3 1 2 3) 10 20 ;; vcv_local2cart L 10 20)
  = Return (diag3 (entry (col3 1 2 3) 0 0) (entry (col3 1 2 3) 1 0)
                  (entry (col3 1 2 3) 2 0)).
Proof. apply (vcv_column_round_trip (col3 1 2 3) 10 20). reflexivity. Defined.

(** The entries of both conversions on a 3x3 array, with the rotation
    matrix written out. *)
Ltac conversion_entries V HV lat lon :=
  let a := fresh "a" in let b := fresh "b" in let c := fresh "c" in
  let d := fresh "d" in let e := fresh "e" in let f := fresh "f" in
  let g := fresh "g" in let h := fresh "h" in let i := fresh "i" in
  rewrite ?(vcv_cart2local_3x3 V lat lon HV), ?(vcv_local2cart_3x3 V lat lon HV);
  destruct (has_shape_3_3 V HV) as (a & b & c & d & e & f & g & h & i & ->);
  rewrite rotation_matrix_mat3, transpose_mat3, !matprod_mat3.

(** X6.  Both conversions keep a symmetric 3x3 array symmetric. *)
Theorem vcv_conversion_symmetric V lat lon :
  has_shape 3 3 V = true -> symmetric3 V ->
  (exists L, vcv_cart2local V lat lon = Return L /\ symmetric3 L) /\
  (exists C, vcv_local2cart V lat lon = Return C /\ symmetric3 C).
Proof.
  intros HV HS.
  conversion_entries V HV lat lon.
  unfold symmetric3, entry, mat3 in HS. cbn [nth] in HS.
  destruct HS as (H01 & H02 & H12). subst d g h.
  split; eexists; (split; [reflexivity|]);
    unfold symmetric3, entry, mat3; cbn [nth]; repeat split; ring.
Qed.

Lemma vcv_conversion_symmetric_witness :
  (exists L, vcv_cart2local (mat3 4 1 0 1 9 2 0 2 16) (-37) 145 = Return L
             /\ symmetric3 L) /\
  (exists C, vcv_local2cart (mat3 4 1 0 1 9 2 0 2 16) (-37) 145 = Return C
             /\ symmetric3 C).
Proof.
  apply vcv_conversion_symmetric; [reflexivity|].
  unfold symmetric3, entry, mat3; cbn [nth]. repeat split; reflexivity.
Defined.

(** X7.  Both conversions keep the trace of a 3x3 array: the sum of the
    three variances is the same in the two frames. *)
Theorem vcv_conversion_trace V lat lon :
  has_shape 3 3 V = true ->
  (exists L, vcv_cart2local V lat lon = Return L /\ trace3 L = trace3 V) /\
  (exists C, vcv_local2cart V lat lon = Return C /\ trace3 C = trace3 V).
Proof.
  intros HV.
  conversion_entries V HV lat lon.
  split; eexists; (split; [reflexivity|]);
    unfold trace3, entry, mat3; cbn [nth]; trig_vars lat lon; nsatz.
Qed.

Lemma vcv_conversion_trace_witness :
  (exists L, vcv_cart2local (mat3 4 1 0 1 9 2 0 2 16) (-37) 145 = Return L
             /\ trace3 L = trace3 (mat3 4 1 0 1 9 2 0 2 16)) /\
  (exists C, vcv_local2cart (mat3 4 1 0 1 9 2 0 2 16) (-37) 145 = Return C
             /\ trace3 C = trace3 (mat3 4 1 0 1 9 2 0 2 16)).
Proof. apply vcv_conversion_trace. reflexivity. Defined.

(** X8.  Both conversions keep a positive semi-definite 3x3 array positive
    semi-definite: the quadratic form of the result at a vector is the
    form of the input at the rotated vector. *)
Theorem vcv_conversion_psd V lat lon :
  has_shape 3 3 V = true -> psd3 V ->
  (exists L, vcv_cart2local V lat lon = Return L /\ psd3 L) /\
  (exists C, vcv_local2cart V lat lon = Return C /\ psd3 C).
Proof.
  intros HV HP.
  conversion_entries V HV lat lon.
  unfold psd3, form3, entry, mat3 in HP. cbn [nth] in HP.
  set (sa := sin (radians lat)) in *. set (ca := cos (radians lat)) in *.
  set (so := sin (radians lon)) in *. set (co := cos (radians lon)) in *.
  split; eexists; (split; [reflexivity|]); intros x y z;
    unfold form3, entry, mat3; cbn [nth].
  - pose proof (HP (- so * x + - sa * co * y + ca * co * z)
                   (co * x + - sa * so * y + ca * so * z)
                   (ca * y + sa * z)) as H.
    eapply Rle_trans; [exact H|]. right. ring.
  - pose proof (HP (- so * x + co * y)
                   (- sa * co * x + - sa * so * y + ca * z)
                   (ca * co * x + ca * so * y + sa * z)) as H.
    eapply Rle_trans; [exact H|]. right. ring.
Qed.

Lemma psd3_example : psd3 (diag3 1 2 3).
Proof.
  intros x y z. unfold form3, entry, diag3, mat3. cbn [nth].
  pose proof (Rle_0_sqr x) as Hx. pose proof (Rle_0_sqr y) as Hy.
  pose proof (Rle_0_sqr z) as Hz. unfold Rsqr in *. nra.
Defined.

Lemma vcv_conversion_psd_witness :
  (exists L, vcv_cart2local (diag3 1 2 3) (-37) 145 = Return L /\ psd3 L) /\
  (exists C, vcv_local2cart (diag3 1 2 3) (-37) 145 = Return C /\ psd3 C).
Proof.
  apply vcv_conversion_psd; [reflexivity | exact psd3_example].
Defined.

(** ** The error ellipse, further *)

(** What a returned triple is made of. *)
Lemma error_ellipse_inversion V a b o :
  has_shape 3 3 V = true -> error_ellipse V = Return (a, b, o) ->
  0 <= minor_radicand V /\ a = sqrt (major_radicand V) /\
  b = sqrt (minor_radicand V) /\ o = orientation_of V.
Proof.
  intros HV H.
  destruct (Rlt_dec (minor_radicand V) 0) as [Hn|Hn].
  - rewrite (error_ellipse_raises V HV Hn) in H. discriminate H.
  - rewrite (error_ellipse_returns V HV) in H by lra.
    injection H as <- <- <-. repeat split. lra.
Qed.

(** X9.  Whenever [error_ellipse] returns (a, b, o) on a 3x3 array, the
    squares of the two axes are the eigenvalues of the horizontal block:
    they add up to its trace and multiply to its determinant. *)
Theorem error_ellipse_eigenvalues V a b o :
  has_shape 3 3 V = true -> error_ellipse V = Return (a, b, o) ->
  a * a + b * b = entry V 0 0 + entry V 1 1 /\
  (a * a) * (b * b) = entry V 0 0 * entry V 1 1 - entry V 0 1 * entry V 0 1.
Proof.
  intros HV H.
  destruct (error_ellipse_inversion V a b o HV H) as (Hm & -> & -> & _).
  pose proof (radicand_le V) as Hle.
  rewrite !sqrt_sqrt by lra.
  unfold major_radicand, minor_radicand.
  pose proof (discriminant_nonneg (entry V 0 0) (entry V 1 1) (entry V 0 1)) as HD.
  pose proof (sqrt_sqrt _ HD) as Hss.
  set (s := sqrt ((entry V 0 0 - entry V 1 1) ^ 2 + 4 * entry V 0 1 ^ 2)) in *.
  split; [lra|].
  replace (0.5 * (entry V 0 0 + entry V 1 1 + s)
           * (0.5 * (entry V 0 0 + entry V 1 1 - s)))
    with (0.25 * ((entry V 0 0 + entry V 1 1) * (entry V 0 0 + entry V 1 1)
                  - s * s)) by lra.
  rewrite Hss. lra.
Qed.

Lemma error_ellipse_eigenvalues_witness :
  2 * 2 + 1 * 1 = entry (mat3 4 0 0 0 1 0 0 0 1) 0 0
                  + entry (mat3 4 0 0 0 1 0 0 0 1) 1 1 /\
  (2 * 2) * (1 * 1)
  = entry (mat3 4 0 0 0 1 0 0 0 1) 0 0 * entry (mat3 4 0 0 0 1 0 0 0 1) 1 1
    - entry (mat3 4 0 0 0 1 0 0 0 1) 0 1 * entry (mat3 4 0 0 0 1 0 0 0 1) 0 1.
Proof.
  apply (error_ellipse_eigenvalues (mat3 4 0 0 0 1 0 0 0 1) 2 1 90).
  - reflexivity.
  - apply error_ellipse_diag_4_1.
Defined.

Lemma atan2_0_0 : atan2 0 0 = 0.
Proof.
  unfold atan2.
  destruct (Rlt_dec 0 0); [lra|]. reflexivity.
Qed.

Lemma degrees_half_0 : degrees (0.5 * 0) = 0.
Proof. unfold degrees, Rdiv. ring. Qed.

(** X11.  [error_ellipse] reads the entries (0,0), (1,1) and (0,1) without
    a shape test: on an array of fewer than two rows or fewer than two
    columns, such as a 3x1 column of variances, it raises [IndexError]. *)
Theorem error_ellipse_index_error m r c :
  has_shape r c m = true -> (r < 2 \/ c < 2)%nat ->
  exists msg, error_ellipse m = Raise (IndexError msg).
Proof.
  unfold has_shape. intros H Hrc.
  apply andb_prop in H. destruct H as [Hl Hr].
  apply Nat.eqb_eq in Hl.
  destruct m as [|r0 [|r1 rest]].
  - eexists. reflexivity.
  - destruct r0 as [|x r0]; eexists; reflexivity.
  - cbn [forallb] in Hr.
    apply andb_prop in Hr. destruct Hr as [H0 Hr].
    apply andb_prop in Hr. destruct Hr as [H1 _].
    apply Nat.eqb_eq in H0. apply Nat.eqb_eq in H1.
    cbn [List.length] in Hl.
    destruct Hrc as [Hlt|Hlt]; [lia|].
    destruct r0 as [|x [|x' r0]]; cbn [List.length] in H0.
    + eexists. reflexivity.
    + destruct r1 as [|y [|y' r1]]; cbn [List.length] in H1; try lia.
      eexists. reflexivity.
    + lia.
Qed.

Lemma error_ellipse_index_error_witness :
  exists msg, error_ellipse (col3 1 2 3) = Raise (IndexError msg).
Proof.
  apply (error_ellipse_index_error (col3 1 2 3) 3 1); [reflexivity | lia].
Defined.

Lemma atan2_scale t y x : 0 < t -> atan2 (t * y) (t * x) = atan2 y x.
Proof.
  intros Ht. unfold atan2.
  destruct (Rlt_dec 0 x) as [Hx|Hx].
  - destruct (Rlt_dec 0 (t * x)) as [_|H]; [|exfalso; apply H; nra].
    f_equal. field. lra.
  - destruct (Rlt_dec 0 (t * x)) as [H|_]; [exfalso; nra|].
    destruct (Rlt_dec x 0) as [Hx'|Hx'].
    + destruct (Rlt_dec (t * x) 0) as [_|H]; [|exfalso; apply H; nra].
      replace (t * y / (t * x)) with (y / x) by (field; lra).
      destruct (Rle_dec 0 y) as [Hy|Hy].
      * destruct (Rle_dec 0 (t * y)) as [_|H]; [reflexivity|exfalso; apply H; nra].
      * destruct (Rle_dec 0 (t * y)) as [H|_]; [exfalso; nra|reflexivity].
    + assert (x = 0) by lra. subst x.
      destruct (Rlt_dec (t * 0) 0) as [H|_]; [exfalso; nra|].
      destruct (Rlt_dec 0 y) as [Hy|Hy].
      * destruct (Rlt_dec 0 (t * y)) as [_|H]; [reflexivity|exfalso; apply H; nra].
      * destruct (Rlt_dec 0 (t * y)) as [H|_]; [exfalso; nra|].
        destruct (Rlt_dec y 0) as [Hy'|Hy'].
        -- destruct (Rlt_dec (t * y) 0) as [_|H]; [reflexivity|exfalso; apply H; nra].
        -- destruct (Rlt_dec (t * y) 0) as [H|_]; [exfalso; nra|reflexivity].
Qed.

Lemma sqrt_scaled_discriminant t p q r :
  0 < t ->
  sqrt ((t * p - t * q) ^ 2 + 4 * (t * r) ^ 2)
  = t * sqrt ((p - q) ^ 2 + 4 * r ^ 2).
Proof.
  intros Ht.
  replace ((t * p - t * q) ^ 2 + 4 * (t * r) ^ 2)
    with ((t * t) * ((p - q) ^ 2 + 4 * r ^ 2)) by ring.
  rewrite sqrt_mult by (try apply discriminant_nonneg; nra).
  rewrite sqrt_square by lra. reflexivity.
Qed.

Lemma sqrt_scaled k x : 0 < k -> 0 <= x -> sqrt (k * k * x) = k * sqrt x.
Proof.
  intros Hk Hx. rewrite sqrt_mult by nra. rewrite sqrt_square by lra. reflexivity.
Qed.

(** X12.  Scaling the array by [k*k] for a positive [k] (a standard
    deviation scaled by a coverage factor [k]): when [error_ellipse]
    returns on the array and on the scaled array, the axes of the second
    triple are [k] times those of the first and the orientation is the
    same. *)
Theorem error_ellipse_scale V k a b o a' b' o' :
  0 < k -> has_shape 3 3 V = true ->
  error_ellipse V = Return (a, b, o) ->
  error_ellipse (scale (k * k) V) = Return (a', b', o') ->
  a' = k * a /\ b' = k * b /\ o' = o.
Proof.
  intros Hk HV H H'.
  destruct (error_ellipse_inversion V a b o HV H) as (Hm & -> & -> & ->).
  pose proof (radicand_le V) as Hle.
  destruct (has_shape_3_3 V HV) as (v0 & v1 & v2 & v3 & v4 & v5 & v6 & v7 & v8 & ->).
  assert (Hkk : 0 < k * k) by nra.
  assert (HS : has_shape 3 3 (scale (k * k) (mat3 v0 v1 v2 v3 v4 v5 v6 v7 v8)) = true)
    by reflexivity.
  set (W := mat3 v0 v1 v2 v3 v4 v5 v6 v7 v8) in *.
  destruct (error_ellipse_inversion _ a' b' o' HS H') as (_ & -> & -> & ->).
  assert (Hmin' : minor_radicand (scale (k * k) W) = k * k * minor_radicand W).
  { unfold minor_radicand, entry, scale, W, mat3. cbn [map nth].
    rewrite sqrt_scaled_discriminant by assumption. lra. }
  assert (Hmaj' : major_radicand (scale (k * k) W) = k * k * major_radicand W).
  { unfold major_radicand, entry, scale, W, mat3. cbn [map nth].
    rewrite sqrt_scaled_discriminant by assumption. lra. }
  rewrite Hmin', Hmaj'.
  rewrite !sqrt_scaled by lra.
  repeat split.
  unfold orientation_of, entry, scale, W, mat3. cbn [map nth].
  replace (2 * (k * k * v1)) with (k * k * (2 * v1)) by ring.
  replace (k * k * v0 - k * k * v4) with (k * k * (v0 - v4)) by ring.
  now rewrite atan2_scale.
Qed.

Lemma error_ellipse_diag_36_9 :
  error_ellipse (scale (3 * 3) (mat3 4 0 0 0 1 0 0 0 1)) = Return (6, 3, 90).
Proof.
  change (scale (3 * 3) (mat3 4 0 0 0 1 0 0 0 1))
    with (mat3 (3 * 3 * 4) (3 * 3 * 0) (3 * 3 * 0) (3 * 3 * 0) (3 * 3 * 1)
               (3 * 3 * 0) (3 * 3 * 0) (3 * 3 * 0) (3 * 3 * 1)).
  rewrite error_ellipse_mat3.
  replace ((3 * 3 * 4 - 3 * 3 * 1) ^ 2 + 4 * (3 * 3 * 0) ^ 2) with (27 * 27) by ring.
  rewrite math_sqrt_nonneg by lra. rewrite bind_Return.
  rewrite sqrt_square by lra.
  replace (0.5 * (3 * 3 * 4 + 3 * 3 * 1 + 27)) with (6 * 6) by lra.
  replace (0.5 * (3 * 3 * 4 + 3 * 3 * 1 - 27)) with (3 * 3) by lra.
  rewrite math_sqrt_nonneg by lra. rewrite bind_Return.
  rewrite math_sqrt_nonneg by lra. rewrite bind_Return.
  rewrite !sqrt_square by lra.
  replace (2 * (3 * 3 * 0)) with 0 by ring.
  rewrite atan2_0_pos by lra.
  unfold degrees. repeat f_equal. unfold Rdiv. ring.
Qed.

Lemma error_ellipse_scale_witness : 6 = 3 * 2 /\ 3 = 3 * 1 /\ 90 = 90.
Proof.
  apply (error_ellipse_scale (mat3 4 0 0 0 1 0 0 0 1) 3 2 1 90 6 3 90).
  - lra.
  - reflexivity.
  - apply error_ellipse_diag_4_1.
  - apply error_ellipse_diag_36_9.
Defined.

(** ** The circularised radius, further *)

Lemma circ_hz_pu_value a b :
  a <> 0 -> circ_hz_pu a b = Return (a * circ_poly (b / a)).
Proof.
  intros Ha. unfold circ_hz_pu. now rewrite truediv_nonzero.
Qed.

Lemma ratio_unit a b : 0 < a -> 0 <= b <= a -> 0 <= b / a <= 1.
Proof.
  intros Ha [Hb Hba].
  assert (Hi : 0 < / a) by now apply Rinv_0_lt_compat.
  assert (Hone : a * / a = 1) by (apply Rinv_r; lra).
  unfold Rdiv. split; nra.
Qed.

Lemma circ_poly_monotone c1 c2 :
  0 <= c1 <= c2 -> circ_poly c1 <= circ_poly c2.
Proof.
  intros [H1 H12]. unfold circ_poly.
  assert (Hsq : c1 ^ 2 <= c2 ^ 2) by nra.
  assert (Hcu : c1 ^ 3 <= c2 ^ 3).
  { replace (c1 ^ 3) with (c1 * c1 ^ 2) by ring.
    replace (c2 ^ 3) with (c2 * c2 ^ 2) by ring.
    apply Rmult_le_compat; nra. }
  lra.
Qed.

Lemma circ_poly_0 : circ_poly 0 = 1.960790.
Proof. unfold circ_poly. lra. Qed.

Lemma circ_poly_1 : circ_poly 1 = 2.450762.
Proof. unfold circ_poly. lra. Qed.

Lemma circ_hz_pu_between a b :
  0 < a -> 0 <= b <= a ->
  exists r, circ_hz_pu a b = Return r /\ 1.960790 * a <= r <= 2.450762 * a.
Proof.
  intros Ha Hb.
  pose proof (ratio_unit a b Ha Hb) as [Hc0 Hc1].
  exists (a * circ_poly (b / a)).
  split; [apply circ_hz_pu_value; lra|].
  pose proof (circ_poly_monotone 0 (b / a)) as Hlo.
  pose proof (circ_poly_monotone (b / a) 1) as Hhi.
  rewrite circ_poly_0 in Hlo. rewrite circ_poly_1 in Hhi.
  split; nra.
Qed.

(** X13.  For [a > 0] and [0 <= b <= a] the radius returned lies between
    [1.960790 * a] (reached for [b = 0]) and [2.450762 * a] (reached for
    [b = a]). *)
Theorem circ_hz_pu_bounds a b :
  0 < a -> 0 <= b <= a ->
  (exists r, circ_hz_pu a b = Return r /\ 1.960790 * a <= r <= 2.450762 * a) /\
  circ_hz_pu a 0 = Return (1.960790 * a) /\
  circ_hz_pu a a = Return (2.450762 * a).
Proof.
  intros Ha Hb. split; [now apply circ_hz_pu_between|].
  rewrite !circ_hz_pu_value by lra. split; f_equal.
  - replace (0 / a) with 0 by (unfold Rdiv; ring).
    rewrite circ_poly_0. ring.
  - replace (a / a) with 1 by (field; lra).
    rewrite circ_poly_1. ring.
Qed.

Lemma circ_hz_pu_bounds_witness :
  (exists r, circ_hz_pu 2 1 = Return r /\ 1.960790 * 2 <= r <= 2.450762 * 2) /\
  circ_hz_pu 2 0 = Return (1.960790 * 2) /\
  circ_hz_pu 2 2 = Return (2.450762 * 2).
Proof. apply (circ_hz_pu_bounds 2 1); lra. Defined.

(** X14.  The radius grows with the semi-minor axis: for [a > 0] and
    [0 <= b1 <= b2], the radius for [b1] is at most the radius for [b2]. *)
Theorem circ_hz_pu_monotone a b1 b2 :
  0 < a -> 0 <= b1 <= b2 ->
  exists r1 r2,
    circ_hz_pu a b1 = Return r1 /\ circ_hz_pu a b2 = Return r2 /\ r1 <= r2.
Proof.
  intros Ha [H1 H12].
  exists (a * circ_poly (b1 / a)), (a * circ_poly (b2 / a)).
  rewrite !circ_hz_pu_value by lra.
  split; [reflexivity | split; [reflexivity|]].
  assert (Hi : 0 < / a) by now apply Rinv_0_lt_compat.
  apply Rmult_le_compat_l; [lra|].
  apply circ_poly_monotone. unfold Rdiv. split; nra.
Qed.

Lemma circ_hz_pu_monotone_witness :
  exists r1 r2,
    circ_hz_pu 2 1 = Return r1 /\ circ_hz_pu 2 3 = Return r2 /\ r1 <= r2.
Proof. apply (circ_hz_pu_monotone 2 1 3); lra. Defined.

(** X15.  The radius is homogeneous: scaling both axes by a factor [t]
    that is not zero scales the radius by [t]. *)
Theorem circ_hz_pu_homogeneous t a b r :
  t <> 0 -> circ_hz_pu a b = Return r ->
  circ_hz_pu (t * a) (t * b) = Return (t * r).
Proof.
  intros Ht H.
  destruct (Req_dec a 0) as [E|E].
  - subst a. unfold circ_hz_pu in H. rewrite truediv_zero in H. discriminate H.
  - rewrite circ_hz_pu_value in H by assumption. injection H as <-.
    rewrite circ_hz_pu_value by (apply Rmult_integral_contrapositive_currified; assumption).
    replace (t * b / (t * a)) with (b / a) by (field; split; assumption).
    f_equal. ring.
Qed.

Lemma circ_hz_pu_homogeneous_witness :
  circ_hz_pu (3 * 2) (3 * 1) = Return (3 * (2 * circ_poly (1 / 2))).
Proof.
  apply (circ_hz_pu_homogeneous 3 2 1 (2 * circ_poly (1 / 2))); [lra|].
  apply circ_hz_pu_value. lra.
Defined.

(** ** The coverage factor, further *)

Lemma ttable_p95_sorted : StronglySorted Rge ttable_p95.
Proof.
  apply Sorted_StronglySorted.
  - intros x y z Hxy Hyz. lra.
  - unfold ttable_p95. repeat (constructor; [|try (constructor; lra)]).
    constructor.
Qed.

Lemma strongly_sorted_nth (l : list R) (i j : nat) (d : R) :
  StronglySorted Rge l -> (i <= j < List.length l)%nat ->
  nth j l d <= nth i l d.
Proof.
  intros Hs. revert i j.
  induction Hs as [|a l Hs IH Ha]; intros i j [Hij Hj].
  - cbn [List.length] in Hj. lia.
  - cbn [List.length] in Hj.
    destruct i as [|i]; destruct j as [|j]; cbn [nth]; try lia.
    + lra.
    + rewrite Forall_forall in Ha.
      apply Rge_le, Ha, nth_In. lia.
    + apply IH. lia.
Qed.

Lemma k_val95_cases (d : Z) :
  k_val95 (PyInt d) =
  Return (if (120 <? d)%Z then 1.96
          else nth (Z.to_nat (d - 1)) ttable_p95 0).
Proof.
  unfold k_val95. cbn [isinstance_int negb int_value].
  destruct (Z.ltb_spec d 1) as [Hlt|Hge].
  - destruct (Z.ltb_spec 120 d) as [H|_]; [lia|].
    replace (Z.to_nat (d - 1)) with 0%nat by lia. reflexivity.
  - destruct (Z.gtb_spec d 120) as [Hgt|Hle].
    + destruct (Z.ltb_spec 120 d) as [_|H]; [reflexivity|lia].
    + destruct (Z.ltb_spec 120 d) as [H|_]; [lia|].
      destruct (list_getitem_in_range ttable_p95 (d - 1)) as (k & Hk & ->).
      { rewrite ttable_p95_length. lia. }
      f_equal. symmetry. now apply nth_error_nth.
Qed.

Lemma k_val95_instance (v : pyval) :
  isinstance_int v = true -> k_val95 v = k_val95 (PyInt (int_value v)).
Proof. destruct v as [z|[|]|x|s|]; intros H; try discriminate H; reflexivity. Qed.

Lemma ttable_p95_entry_bounds (n : nat) :
  (n < 120)%nat -> 1.97993 <= nth n ttable_p95 0 <= 12.7062.
Proof.
  intros Hn. split.
  - change 1.97993 with (nth 119 ttable_p95 0).
    apply strongly_sorted_nth; [apply ttable_p95_sorted|].
    rewrite ttable_p95_length. lia.
  - change 12.7062 with (nth 0 ttable_p95 0).
    apply strongly_sorted_nth; [apply ttable_p95_sorted|].
    rewrite ttable_p95_length. lia.
Qed.

(** X16.  On every instance of [int] (a [bool] included) [k_val95]
    returns; it raises neither [TypeError] nor [IndexError], and the factor
    it returns lies between 1.96 and 12.7062. *)
Theorem k_val95_total_bounded (v : pyval) :
  isinstance_int v = true ->
  exists k, k_val95 v = Return k /\ 1.96 <= k <= 12.7062.
Proof.
  intros Hv. rewrite (k_val95_instance v Hv), k_val95_cases.
  eexists. split; [reflexivity|].
  destruct (Z.ltb_spec 120 (int_value v)) as [H|H]; [lra|].
  pose proof (ttable_p95_entry_bounds (Z.to_nat (int_value v - 1))) as Hb.
  assert (Hn : (Z.to_nat (int_value v - 1) < 120)%nat) by lia.
  specialize (Hb Hn). lra.
Qed.

Lemma k_val95_total_bounded_witness :
  exists k, k_val95 (PyBool true) = Return k /\ 1.96 <= k <= 12.7062.
Proof. apply k_val95_total_bounded. reflexivity. Defined.

(** X17.  The coverage factor never grows with the degrees of freedom:
    for integers [d1 <= d2], [k_val95(d2) <= k_val95(d1)]. *)
Theorem k_val95_antitone (d1 d2 : Z) :
  (d1 <= d2)%Z ->
  exists k1 k2,
    k_val95 (PyInt d1) = Return k1 /\ k_val95 (PyInt d2) = Return k2 /\
    k2 <= k1.
Proof.
  intros Hd. rewrite !k_val95_cases.
  eexists. eexists. split; [reflexivity | split; [reflexivity|]].
  destruct (Z.ltb_spec 120 d2) as [H2|H2];
    destruct (Z.ltb_spec 120 d1) as [H1|H1]; try lia.
  - lra.
  - pose proof (ttable_p95_entry_bounds (Z.to_nat (d1 - 1))) as Hb.
    assert (Hn : (Z.to_nat (d1 - 1) < 120)%nat) by lia.
    specialize (Hb Hn). lra.
  - apply strongly_sorted_nth; [apply ttable_p95_sorted|].
    rewrite ttable_p95_length. lia.
Qed.

Lemma k_val95_antitone_witness :
  exists k1 k2,
    k_val95 (PyInt 5) = Return k1 /\ k_val95 (PyInt 200) = Return k2 /\
    k2 <= k1.
Proof. apply (k_val95_antitone 5 200). lia. Defined.

(** ** From the array to the radius *)

(** X18.  [error_ellipse] followed by [circ_hz_pu]: whenever
    [error_ellipse] returns (a, b, o) on a 3x3 array with a positive
    semi-major axis, [circ_hz_pu] called on the two axes returns, and the
    radius lies between 1.960790 and 2.450762 times the semi-major
    axis. *)
Theorem ellipse_radius_returns V a b o :
  has_shape 3 3 V = true -> error_ellipse V = Return (a, b, o) -> 0 < a ->
  exists r, circ_hz_pu a b = Return r /\ 1.960790 * a <= r <= 2.450762 * a.
Proof.
  intros HV H Ha.
  destruct (error_ellipse_inversion V a b o HV H) as (Hm & Ea & Eb & _).
  apply circ_hz_pu_between; [assumption|].
  subst a b. split; [apply sqrt_pos|].
  apply sqrt_le_1_alt, radicand_le.
Qed.

Lemma ellipse_radius_returns_witness :
  exists r, circ_hz_pu 2 1 = Return r /\ 1.960790 * 2 <= r <= 2.450762 * 2.
Proof.
  apply (ellipse_radius_returns (mat3 4 0 0 0 1 0 0 0 1) 2 1 90).
  - reflexivity.
  - apply error_ellipse_diag_4_1.
  - lra.
Defined.

(** X19.  The degenerate case: when the trace of a symmetric positive
    semi-definite horizontal block is zero, [error_ellipse] returns the
    axes (0, 0) with orientation 90, and [circ_hz_pu] called on the two
    axes raises [ZeroDivisionError]. *)
Theorem ellipse_radius_zero_block V :
  has_shape 3 3 V = true -> block_symmetric V -> block_psd V ->
  entry V 0 0 + entry V 1 1 = 0 ->
  error_ellipse V = Return (0, 0, 90) /\
  (e <- error_ellipse V ;; circ_hz_pu (fst (fst e)) (snd (fst e)))
  = Raise (ZeroDivisionError "float division by zero").
Proof.
  intros HV Hs Hp Ht.
  assert (He : error_ellipse V = Return (0, 0, 90)).
  { pose proof (block_psd_radicand V Hs Hp) as Hm.
    assert (Hz : entry V 0 0 = 0 /\ entry V 1 1 = 0 /\ entry V 0 1 = 0).
    { unfold block_symmetric, block_psd, block_form in *.
      rewrite <- Hs in Hp.
      destruct (psd_trace_det _ _ _ Hp) as [_ Hd].
      pose proof (Hp 1 0) as H0. pose proof (Hp 0 1) as H1.
      assert (E0 : entry V 0 0 = 0) by lra.
      assert (E1 : entry V 1 1 = 0) by lra.
      rewrite E0, E1 in Hd. repeat split; nra. }
    destruct Hz as (E0 & E1 & E01).
    rewrite (error_ellipse_returns V HV Hm).
    unfold major_radicand, minor_radicand, orientation_of.
    rewrite E0, E1, E01.
    replace ((0 - 0) ^ 2 + 4 * 0 ^ 2) with 0 by ring.
    rewrite sqrt_0.
    replace (0.5 * (0 + 0 + 0)) with 0 by lra.
    replace (0.5 * (0 + 0 - 0)) with 0 by lra.
    rewrite sqrt_0.
    replace (2 * 0) with 0 by ring. replace (0 - 0) with 0 by ring.
    rewrite atan2_0_0, degrees_half_0.
    repeat f_equal. ring. }
  split; [assumption|].
  rewrite He, bind_Return. cbn [fst snd].
  unfold circ_hz_pu. now rewrite truediv_zero.
Qed.

Lemma zero_block_psd : block_psd (mat3 0 0 0 0 0 0 0 0 5).
Proof.
  intros x y. unfold block_form, entry, mat3. cbn [nth]. lra.
Defined.

Lemma ellipse_radius_zero_block_witness :
  error_ellipse (mat3 0 0 0 0 0 0 0 0 5) = Return (0, 0, 90) /\
  (e <- error_ellipse (mat3 0 0 0 0 0 0 0 0 5) ;;
   circ_hz_pu (fst (fst e)) (snd (fst e)))
  = Raise (ZeroDivisionError "float division by zero").
Proof.
  apply ellipse_radius_zero_block;
    [reflexivity | reflexivity | exact zero_block_psd |].
  unfold entry, mat3; cbn [nth]; lra.
Defined.

(** ** More on the rotation matrix and the conversions *)

Lemma radians_turn x : radians (x + 360) = radians x + 2 * PI.
Proof. unfold radians. field. Qed.

Lemma sin_turn x : sin (x + 2 * PI) = sin x.
Proof. rewrite sin_plus, sin_2PI, cos_2PI. ring. Qed.

Lemma cos_turn x : cos (x + 2 * PI) = cos x.
Proof. rewrite cos_plus, sin_2PI, cos_2PI. ring. Qed.

(** X21.  No range is imposed on the angles: a latitude or a longitude
    moved by a full turn of 360 degrees gives the same rotation matrix. *)
Theorem rotation_matrix_periodic lat lon :
  rotation_matrix (lat + 360) lon = rotation_matrix lat lon /\
  rotation_matrix lat (lon + 360) = rotation_matrix lat lon.
Proof.
  unfold rotation_matrix. cbv zeta.
  rewrite !radians_turn, !sin_turn, !cos_turn. split; reflexivity.
Qed.

Lemma has_shape_scale k V :
  has_shape 3 3 V = true -> has_shape 3 3 (scale k V) = true.
Proof.
  intros HV.
  destruct (has_shape_3_3 V HV) as (a & b & c & d & e & f & g & h & i & ->).
  reflexivity.
Qed.

Lemma scale_mat3 k a b c d e f g h i :
  scale k (mat3 a b c d e f g h i)
  = mat3 (k * a) (k * b) (k * c) (k * d) (k * e) (k * f) (k * g) (k * h) (k * i).
Proof. reflexivity. Qed.

(** X22.  The conversions commute with scaling: converting [k * V] gives
    [k] times the conversion of [V], in both directions. *)
Theorem vcv_conversion_scale V k lat lon :
  has_shape 3 3 V = true ->
  (exists L, vcv_cart2local V lat lon = Return L /\
             vcv_cart2local (scale k V) lat lon = Return (scale k L)) /\
  (exists C, vcv_local2cart V lat lon = Return C /\
             vcv_local2cart (scale k V) lat lon = Return (scale k C)).
Proof.
  intros HV.
  rewrite (vcv_cart2local_3x3 _ lat lon (has_shape_scale k V HV)).
  rewrite (vcv_local2cart_3x3 _ lat lon (has_shape_scale k V HV)).
  conversion_entries V HV lat lon.
  rewrite !scale_mat3, !matprod_mat3.
  split; eexists; (split; [reflexivity|]); f_equal;
    rewrite scale_mat3; unfold mat3; repeat (f_equal; try ring).
Qed.

Lemma vcv_conversion_scale_witness :
  (exists L, vcv_cart2local (mat3 4 1 0 1 9 2 0 2 16) (-37) 145 = Return L /\
             vcv_cart2local (scale 4 (mat3 4 1 0 1 9 2 0 2 16)) (-37) 145
             = Return (scale 4 L)) /\
  (exists C, vcv_local2cart (mat3 4 1 0 1 9 2 0 2 16) (-37) 145 = Return C /\
             vcv_local2cart (scale 4 (mat3 4 1 0 1 9 2 0 2 16)) (-37) 145
             = Return (scale 4 C)).
Proof. apply vcv_conversion_scale. reflexivity. Defined.

(** X23.  An isotropic array, the same variance [v] on the diagonal and
    no covariance, is the same in both frames: both conversions return it
    unchanged, whatever the latitude and the longitude. *)
Theorem vcv_conversion_isotropic v lat lon :
  vcv_cart2local (diag3 v v v) lat lon = Return (diag3 v v v) /\
  vcv_local2cart (diag3 v v v) lat lon = Return (diag3 v v v).
Proof.
  assert (HV : has_shape 3 3 (diag3 v v v) = true) by reflexivity.
  rewrite (vcv_cart2local_3x3 _ lat lon HV), (vcv_local2cart_3x3 _ lat lon HV).
  unfold diag3.
  rewrite rotation_matrix_mat3, transpose_mat3, !matprod_mat3.
  trig_vars lat lon.
  split; f_equal; unfold mat3; repeat f_equal; nsatz.
Qed.

(** * Properties on binary64 numbers *)

Module F64Facts.

Import Floats.PrimFloat.
Import F64.
Local Open Scope float_scope.
Local Open Scope f64_scope.

(** ** The exact values of the three arrays *)

Ltac to_R_literal :=
  unfold to_R;
  match goal with
  | |- context [FloatOps.Prim2SF ?x] =>
      let v := eval vm_compute in (FloatOps.Prim2SF x) in
      replace (FloatOps.Prim2SF x) with v by (vm_compute; reflexivity)
  end;
  try reflexivity;
  unfold powerRZ;
  match goal with
  | |- context [Pos.to_nat ?p] =>
      let n := eval vm_compute in (Pos.to_nat p) in
      replace (Pos.to_nat p) with n by reflexivity
  end;
  lra.

Lemma reals_ill_conditioned :
  reals ill_conditioned = mat3 511101108224 2304 0 2304 (11 / 1048576) 0 0 0 1.
Proof.
  unfold reals, ill_conditioned, mat3. cbn [map].
  repeat f_equal; to_R_literal.
Qed.


(** ** The square root *)






(** ** The error ellipse *)

(** C4, at a failing input.  The block [[119 * 2^32, 2304], [2304,
    11 * 2^-20]] is symmetric and positive definite, and [error_ellipse]
    raises [ValueError] on it: the sum of the variances rounds to the
    larger one, [z] rounds to the next double above it, and the radicand
    of the semi-minor axis comes out as -2^-15.  Both squares are exact,
    so the outcome does not depend on the C library. *)
Theorem error_ellipse_raises_on_psd :
  block_symmetric (reals ill_conditioned) /\
  block_psd (reals ill_conditioned) /\
  error_ellipse ill_conditioned = Raises (ValueError "math domain error").
Proof.
  rewrite reals_ill_conditioned. split; [reflexivity|]. split.
  - intros x y. unfold block_form, entry, mat3. cbn [nth].
    apply form_nonneg; lra.
  - vm_compute. reflexivity.
Qed.







(** ** The circularised radius *)




End F64Facts.
